(** * goresult: Result and Option containers

    A shallow embedding of the Go package [goresult] (result.go, option.go,
    util.go) and the verification of its contract.

    The package exists in two variants: one exposes the structs [Result] and
    [Option] with public fields, the other hides the structs [result] and
    [option] behind the interfaces [Result] and [Option].  Each variant is
    embedded in a module of its own, [StructV] and [IfaceV]; what both take
    from the Go runtime ([error], [interface{}], [fmt], [reflect], [panic])
    is in module [Go].

    Conventions of the embedding.
    - The library never writes to a struct after it has built it, so a
      [*Result[T]] is embedded as the record it points to; equality of two
      containers is equality of their contents (what the package's tests
      compare with [assert.Equal]).
    - A function that may panic returns an [outcome]; a function that calls
      a callback runs in the monad [M W], where [W] is the state of the
      caller that the callback may read and write. *)

From Stdlib Require Import String ZArith DecimalString List.
From Stdlib.Strings Require Import Byte.
Local Open Scope string_scope.

(** ** The Go runtime, as far as the package uses it *)
Module Go.

(** A non-nil value of interface type [error]: its dynamic type (as
    [reflect.TypeOf(e).String()] prints it) and the result of its method
    [Error()], taken to be a pure method, as the interface intends. *)
Record errval : Type := mk_errval {
  err_type : string;
  err_desc : string
}.

(** A value of interface type [error]. *)
Inductive error : Type :=
| nil_error : error
| an_error (e : errval) : error.

(** A value of type [interface{}]: the nil interface, a value whose dynamic
    type has a method [Error() string], or any other value, given by the name
    of its dynamic type and by the text that the verb [%v] prints for it. *)
Inductive any : Type :=
| nil : any
| boxed_error (e : errval) : any
| boxed (ty : string) (text : string) : any.

(** [err == nil] and [err != nil] on a value of type [error]. *)
Definition error_is_nil (e : error) : bool :=
  match e with
  | nil_error => true
  | an_error _ => false
  end.

(** What a Go type [T] brings with it: its zero value, and the conversion
    of a [T] to [interface{}] that takes place when a [T] is passed to
    [reflect.TypeOf] or to [fmt].  For an interface type the conversion
    keeps nil; for any other type it never yields nil. *)
Class GoType (T : Type) : Type := {
  zero : T;
  to_any : T -> any
}.

Definition string_of_Z (n : Z) : string := NilZero.string_of_int (Z.to_int n).

#[export] Instance GoType_string : GoType string :=
  {| zero := ""; to_any := fun s => boxed "string" s |}.

#[export] Instance GoType_int : GoType Z :=
  {| zero := 0%Z; to_any := fun n => boxed "int" (string_of_Z n) |}.

#[export] Instance GoType_bool : GoType bool :=
  {| zero := false;
     to_any := fun b => boxed "bool" (if b then "true" else "false") |}.

(** A [[]byte]: the nil slice or a slice of bytes.  [%v] prints the bytes in
    decimal between brackets, and the nil slice like the empty one. *)
Definition bytes : Type := option (list Byte.byte).

Definition Sprint_bytes (b : bytes) : string :=
  match b with
  | None => "[]"
  | Some l =>
      "[" ++ String.concat " "
               (List.map (fun x => string_of_Z (Z.of_N (Byte.to_N x))) l)
          ++ "]"
  end.

#[export] Instance GoType_bytes : GoType bytes :=
  {| zero := None; to_any := fun b => boxed "[]uint8" (Sprint_bytes b) |}.

#[export] Instance GoType_any : GoType any :=
  {| zero := nil; to_any := fun x => x |}.

#[export] Instance GoType_error : GoType error :=
  {| zero := nil_error;
     to_any := fun e => match e with
                        | nil_error => nil
                        | an_error v => boxed_error v
                        end |}.

(** *** Panics *)

(** A call either returns or panics with the value given to [panic]. *)
Inductive outcome (A : Type) : Type :=
| Returned (a : A) : outcome A
| Panicked (p : any) : outcome A.
Arguments Returned {A} a.
Arguments Panicked {A} p.

Definition obind {A B : Type} (c : outcome A) (k : A -> outcome B) : outcome B :=
  match c with
  | Returned a => k a
  | Panicked p => Panicked p
  end.

(** The panic the runtime raises when a method is called on a nil
    interface value or a nil pointer is dereferenced. *)
Definition nil_dereference : any :=
  boxed_error
    (mk_errval "runtime.errorString"
       "runtime error: invalid memory address or nil pointer dereference").

(** *** Code that calls back into the caller

    [M W A]: a computation over the caller's state [W] that returns an [A]
    or panics. *)
Definition M (W A : Type) : Type := W -> outcome A * W.

Definition ret {W A : Type} (a : A) : M W A := fun w => (Returned a, w).

Definition bind {W A B : Type} (c : M W A) (k : A -> M W B) : M W B :=
  fun w =>
    match c w with
    | (Returned a, w') => k a w'
    | (Panicked p, w') => (Panicked p, w')
    end.

(** *** errors, fmt, reflect *)

(** [errors.New(s)]. *)
Definition errors_New (s : string) : errval :=
  mk_errval "*errors.errorString" s.

(** [fmt.Sprintf("%v", x)]: the nil interface prints as [<nil>], an error
    prints what its method [Error()] returns. *)
Definition Sprintf_v (x : any) : string :=
  match x with
  | nil => "<nil>"
  | boxed_error e => err_desc e
  | boxed _ text => text
  end.

(** [fmt.Errorf("%v", x)]. *)
Definition Errorf_v (x : any) : error := an_error (errors_New (Sprintf_v x)).

(** [fmt.Errorf("%s: %s", a, b)] for two strings. *)
Definition Errorf_s_s (a b : string) : error :=
  an_error (errors_New (a ++ ": " ++ b)).

(** [err.Error()] on a value of type [error]: a nil interface has no method
    to call. *)
Definition error_Error (e : error) : outcome string :=
  match e with
  | nil_error => Panicked nil_dereference
  | an_error v => Returned (err_desc v)
  end.

(** A [reflect.Type]: nil, or a type by its name. *)
Inductive rtype : Type :=
| nil_rtype : rtype
| a_rtype (name : string) : rtype.

(** [reflect.TypeOf(x)]: nil for the nil interface. *)
Definition reflect_TypeOf (x : any) : rtype :=
  match x with
  | nil => nil_rtype
  | boxed_error e => a_rtype (err_type e)
  | boxed ty _ => a_rtype ty
  end.

(** [t.String()] on a [reflect.Type]. *)
Definition rtype_String (t : rtype) : outcome string :=
  match t with
  | nil_rtype => Panicked nil_dereference
  | a_rtype name => Returned name
  end.

(** The description that a panic value carries when it is an error. *)
Definition panic_message {A : Type} (c : outcome A) : string :=
  match c with
  | Panicked p => Sprintf_v p
  | Returned _ => ""
  end.

End Go.

Import Go.

Declare Scope go_scope.
Delimit Scope go_scope with go.
Notation "x <- c ;; k" := (bind c (fun x => k))
  (at level 61, c at next level, right associativity) : go_scope.
Notation "c ;; k" := (bind c (fun _ => k))
  (at level 61, right associativity) : go_scope.
Notation "x <-! c ;; k" := (obind c (fun x => k))
  (at level 61, c at next level, right associativity) : go_scope.
Notation "c ;;! k" := (obind c (fun _ => k))
  (at level 61, right associativity) : go_scope.

(** [a && c()]: the right operand runs only when the left one is true. *)
Definition and_then {W : Type} (a : bool) (c : M W bool) : M W bool :=
  if a then c else ret false.

Local Open Scope go_scope.

(** ** util.go *)

(** [covertError]: the type switch takes the case [error] when the dynamic
    type of [err] has the method [Error]; the nil interface has no dynamic
    type and takes [default]. *)
Definition covertError (err : any) : error :=
  match err with
  | boxed_error e => an_error e
  | _ => Errorf_v err
  end.

(** ** The variant with public structs (result.go, option.go) *)
Module StructV.

Record Result (T : Type) : Type := mk_Result {
  Result_Value : T;
  Result_Error : error
}.
Arguments mk_Result {T} _ _.
Arguments Result_Value {T} _.
Arguments Result_Error {T} _.

Record Option (T : Type) : Type := mk_Option {
  Option_Value : T;
  Option_none : bool
}.
Arguments mk_Option {T} _ _.
Arguments Option_Value {T} _.
Arguments Option_none {T} _.

Section Generic.
Context {T : Type} `{GoType T}.

Definition Ok (value : T) : Result T :=
  {| Result_Value := value; Result_Error := nil_error |}.

Definition Error (err : any) : Result T :=
  {| Result_Value := zero; Result_Error := covertError err |}.

Definition Some (value : T) : Option T :=
  {| Option_Value := value; Option_none := false |}.

Definition None : Option T :=
  {| Option_Value := zero; Option_none := true |}.

Definition Result_IsOk (r : Result T) : bool :=
  error_is_nil (Result_Error r).

Definition Result_IsError (r : Result T) : bool :=
  negb (error_is_nil (Result_Error r)).

Definition unwrapErrorFailed (msg : string) (err : error) : outcome unit :=
  s <-! error_Error err ;;
  Panicked (to_any (Errorf_s_s msg s)).

Definition unwrapValueFailed (msg : string) (value : T) : outcome unit :=
  types <-! rtype_String (reflect_TypeOf (to_any value)) ;;
  Panicked (to_any (Errorf_s_s msg types)).

Definition Result_Except (r : Result T) (msg : string) : outcome T :=
  (if Result_IsError r then unwrapErrorFailed msg (Result_Error r)
   else Returned tt) ;;!
  Returned (Result_Value r).

Definition Result_ExceptError (r : Result T) (msg : string) : outcome error :=
  (if Result_IsOk r then unwrapValueFailed msg (Result_Value r)
   else Returned tt) ;;!
  Returned (Result_Error r).

Definition Result_Inspect {W : Type} (r : Result T) (f : T -> M W unit)
  : M W (Result T) :=
  (if Result_IsOk r then f (Result_Value r) else ret tt) ;;
  ret r.

Definition Result_InspectError {W : Type} (r : Result T)
  (f : error -> M W unit) : M W (Result T) :=
  (if Result_IsError r then f (Result_Error r) else ret tt) ;;
  ret r.

Definition Result_Unwrap (r : Result T) : outcome T :=
  Result_Except r "called `Result.Unwrap()` on an `Error` value".

Definition Result_UnwrapError (r : Result T) : outcome error :=
  Result_ExceptError r "called `Result.UnwrapError()` on an `Value` value".

Definition Result_UnwrapOr (r : Result T) (defaults : T) : T :=
  if Result_IsOk r then Result_Value r else defaults.

Definition Result_UnwrapOrDefault (r : Result T) : T :=
  if Result_IsOk r then Result_Value r
  else Result_Value (mk_Result zero nil_error).

Definition Result_UnwrapOrElse {W : Type} (r : Result T) (f : M W T)
  : M W T :=
  if Result_IsOk r then ret (Result_Value r) else f.

Definition Result_Option (r : Result T) : Option T :=
  if Result_IsOk r then Some (Result_Value r) else None.

Definition Option_IsSome (opt : Option T) : bool := negb (Option_none opt).

Definition Option_IsNone (opt : Option T) : bool := Option_none opt.

Definition Option_Unwrap (opt : Option T) : outcome T :=
  (if Option_IsNone opt
   then Panicked (to_any "called `Option.Unwrap()` on a `nil` value")
   else Returned tt) ;;!
  Returned (Option_Value opt).

Definition Option_UnwrapOr (opt : Option T) (defaults : T) : T :=
  if Option_IsNone opt then defaults else Option_Value opt.

Definition Option_UnwrapOrElse {W : Type} (opt : Option T) (f : M W T)
  : M W T :=
  if Option_IsNone opt then f else ret (Option_Value opt).

Definition Option_UnwrapOrDefault (opt : Option T) : T :=
  if Option_IsNone opt then Option_Value None else Option_Value opt.

Definition Option_Inspect {W : Type} (opt : Option T) (f : T -> M W unit)
  : M W (Option T) :=
  (if Option_IsSome opt then f (Option_Value opt) else ret tt) ;;
  ret opt.

Definition Option_OkOr (opt : Option T) (err : any) : Result T :=
  if Option_IsSome opt then Ok (Option_Value opt) else Error err.

Definition Option_OkOrElse {W : Type} (opt : Option T) (f : M W error)
  : M W (Result T) :=
  if Option_IsSome opt then ret (Ok (Option_Value opt))
  else e <- f ;; ret (Error (to_any e)).

Definition Option_Filter {W : Type} (opt : Option T)
  (predicate : T -> M W bool) : M W (Option T) :=
  b <- and_then (Option_IsSome opt) (predicate (Option_Value opt)) ;;
  if b then ret opt else ret None.

End Generic.
End StructV.

(** ** The variant with interfaces over hidden structs

    The interfaces [Result[T]] and [Option[T]] have one implementation each,
    [*result[T]] and [*option[T]]; the constructors return these, so a
    [Result[T]] of this variant is embedded as the record [result T]. *)
Module IfaceV.

(** The method sets of the two interfaces; [R] and [O] are the types that
    implement [Result[T]] and [Option[T]]. *)
Class Result (T R O : Type) : Type := {
  Result_Value : R -> T;
  Result_Error : R -> error;
  Result_IsOk : R -> bool;
  Result_IsError : R -> bool;
  Result_Except : R -> string -> outcome T;
  Result_ExceptError : R -> string -> outcome error;
  Result_Inspect : forall {W : Type}, R -> (T -> M W unit) -> M W R;
  Result_InspectError : forall {W : Type}, R -> (error -> M W unit) -> M W R;
  Result_Unwrap : R -> outcome T;
  Result_UnwrapError : R -> outcome error;
  Result_UnwrapOr : R -> T -> T;
  Result_UnwrapOrDefault : R -> T;
  Result_UnwrapOrElse : forall {W : Type}, R -> M W T -> M W T;
  Result_Option : R -> O
}.

Class Option (T R O : Type) : Type := {
  Option_Value : O -> T;
  Option_IsSome : O -> bool;
  Option_IsNone : O -> bool;
  Option_Unwrap : O -> outcome T;
  Option_UnwrapOr : O -> T -> T;
  Option_UnwrapOrElse : forall {W : Type}, O -> M W T -> M W T;
  Option_UnwrapOrDefault : O -> T;
  Option_Inspect : forall {W : Type}, O -> (T -> M W unit) -> M W O;
  Option_OkOr : O -> any -> R;
  Option_OkOrElse : forall {W : Type}, O -> M W error -> M W R;
  Option_Filter : forall {W : Type}, O -> (T -> M W bool) -> M W O
}.

Record result (T : Type) : Type := mk_result {
  result_value : T;
  result_error : error
}.
Arguments mk_result {T} _ _.
Arguments result_value {T} _.
Arguments result_error {T} _.

Record option (T : Type) : Type := mk_option {
  option_value : T;
  option_none : bool
}.
Arguments mk_option {T} _ _.
Arguments option_value {T} _.
Arguments option_none {T} _.

Section Generic.
Context {T : Type} `{GoType T}.

Definition Ok (value : T) : result T :=
  {| result_value := value; result_error := nil_error |}.

Definition Error (err : any) : result T :=
  {| result_value := zero; result_error := covertError err |}.

Definition Some (value : T) : option T :=
  {| option_value := value; option_none := false |}.

Definition None : option T :=
  {| option_value := zero; option_none := true |}.

Definition result_Value (r : result T) : T := result_value r.

Definition result_Error (r : result T) : error := result_error r.

Definition result_IsOk (r : result T) : bool :=
  error_is_nil (result_error r).

Definition result_IsError (r : result T) : bool :=
  negb (error_is_nil (result_error r)).

Definition unwrapErrorFailed (msg : string) (err : error) : outcome unit :=
  s <-! error_Error err ;;
  Panicked (to_any (Errorf_s_s msg s)).

Definition unwrapValueFailed (msg : string) (value : T) : outcome unit :=
  types <-! rtype_String (reflect_TypeOf (to_any value)) ;;
  Panicked (to_any (Errorf_s_s msg types)).

Definition result_Except (r : result T) (msg : string) : outcome T :=
  (if result_IsError r then unwrapErrorFailed msg (result_error r)
   else Returned tt) ;;!
  Returned (result_value r).

Definition result_ExceptError (r : result T) (msg : string) : outcome error :=
  (if result_IsOk r then unwrapValueFailed msg (result_value r)
   else Returned tt) ;;!
  Returned (result_error r).

Definition result_Inspect {W : Type} (r : result T) (f : T -> M W unit)
  : M W (result T) :=
  (if result_IsOk r then f (result_value r) else ret tt) ;;
  ret r.

Definition result_InspectError {W : Type} (r : result T)
  (f : error -> M W unit) : M W (result T) :=
  (if result_IsError r then f (result_error r) else ret tt) ;;
  ret r.

Definition result_Unwrap (r : result T) : outcome T :=
  result_Except r "called `result.Unwrap()` on an `error` value".

Definition result_UnwrapError (r : result T) : outcome error :=
  result_ExceptError r "called `result.UnwrapError()` on an `value` value".

Definition result_UnwrapOr (r : result T) (defaults : T) : T :=
  if result_IsOk r then result_value r else defaults.

Definition result_UnwrapOrDefault (r : result T) : T :=
  if result_IsOk r then result_value r
  else result_value (mk_result zero nil_error).

Definition result_UnwrapOrElse {W : Type} (r : result T) (f : M W T)
  : M W T :=
  if result_IsOk r then ret (result_value r) else f.

Definition result_Option (r : result T) : option T :=
  if result_IsOk r then Some (result_value r) else None.

Definition option_Value (opt : option T) : T := option_value opt.

Definition option_IsSome (opt : option T) : bool := negb (option_none opt).

Definition option_IsNone (opt : option T) : bool := option_none opt.

Definition option_Unwrap (opt : option T) : outcome T :=
  (if option_IsNone opt
   then Panicked (to_any "called `option.Unwrap()` on a `nil` value")
   else Returned tt) ;;!
  Returned (option_value opt).

Definition option_UnwrapOr (opt : option T) (defaults : T) : T :=
  if option_IsNone opt then defaults else option_value opt.

Definition option_UnwrapOrElse {W : Type} (opt : option T) (f : M W T)
  : M W T :=
  if option_IsNone opt then f else ret (option_value opt).

Definition option_UnwrapOrDefault (opt : option T) : T :=
  if option_IsNone opt then option_Value None else option_value opt.

Definition option_Inspect {W : Type} (opt : option T) (f : T -> M W unit)
  : M W (option T) :=
  (if option_IsSome opt then f (option_value opt) else ret tt) ;;
  ret opt.

Definition option_OkOr (opt : option T) (err : any) : result T :=
  if option_IsSome opt then Ok (option_value opt) else Error err.

Definition option_OkOrElse {W : Type} (opt : option T) (f : M W error)
  : M W (result T) :=
  if option_IsSome opt then ret (Ok (option_value opt))
  else e <- f ;; ret (Error (to_any e)).

Definition option_Filter {W : Type} (opt : option T)
  (predicate : T -> M W bool) : M W (option T) :=
  b <- and_then (option_IsSome opt) (predicate (option_value opt)) ;;
  if b then ret opt else ret None.

(** [*result[T]] implements [Result[T]] and [*option[T]] implements
    [Option[T]]. *)
#[export] Instance result_is_Result : Result T (result T) (option T) := {|
  Result_Value := result_Value;
  Result_Error := result_Error;
  Result_IsOk := result_IsOk;
  Result_IsError := result_IsError;
  Result_Except := result_Except;
  Result_ExceptError := result_ExceptError;
  Result_Inspect := @result_Inspect;
  Result_InspectError := @result_InspectError;
  Result_Unwrap := result_Unwrap;
  Result_UnwrapError := result_UnwrapError;
  Result_UnwrapOr := result_UnwrapOr;
  Result_UnwrapOrDefault := result_UnwrapOrDefault;
  Result_UnwrapOrElse := @result_UnwrapOrElse;
  Result_Option := result_Option
|}.

#[export] Instance option_is_Option : Option T (result T) (option T) := {|
  Option_Value := option_Value;
  Option_IsSome := option_IsSome;
  Option_IsNone := option_IsNone;
  Option_Unwrap := option_Unwrap;
  Option_UnwrapOr := option_UnwrapOr;
  Option_UnwrapOrElse := @option_UnwrapOrElse;
  Option_UnwrapOrDefault := option_UnwrapOrDefault;
  Option_Inspect := @option_Inspect;
  Option_OkOr := option_OkOr;
  Option_OkOrElse := @option_OkOrElse;
  Option_Filter := @option_Filter
|}.

End Generic.
End IfaceV.

(** ** Instruments of the verification *)

(** A call counter: [counted c] is the callback [c] that also increments a
    counter kept next to the caller's state; [calls c w] is the number of
    increments that running [c] from [w] makes. *)
Definition counted {W A : Type} (c : M W A) : M (nat * W) A :=
  fun s => let (o, w') := c (snd s) in (o, (S (fst s), w')).

Definition calls {W A : Type} (c : M (nat * W) A) (w : W) : nat :=
  fst (snd (c (0, w))).

(** The way from the struct variant to the interface variant: the same
    fields under the hidden names. *)
Definition iface_of_Result {T : Type} (r : StructV.Result T) : IfaceV.result T :=
  IfaceV.mk_result (StructV.Result_Value r) (StructV.Result_Error r).

Definition iface_of_Option {T : Type} (o : StructV.Option T) : IfaceV.option T :=
  IfaceV.mk_option (StructV.Option_Value o) (StructV.Option_none o).

(** Two outcomes agree when both return the same value or both panic. *)
Definition outcome_agree {A : Type} (o o' : outcome A) : Prop :=
  match o, o' with
  | Returned a, Returned a' => a = a'
  | Panicked _, Panicked _ => True
  | _, _ => False
  end.

(** The result of a run in the struct variant, seen in the interface
    variant. *)
Definition run_map {W A B : Type} (f : A -> B) (x : outcome A * W)
  : outcome B * W :=
  match x with
  | (Returned a, w) => (Returned (f a), w)
  | (Panicked p, w) => (Panicked p, w)
  end.

(** Callbacks on a caller whose state is one number: a fallback that
    returns 2, a predicate that tests for 1, and two observers that store
    what they are given; each adds one to the state. *)
Definition fallback_two : M nat Z := fun w => (Returned 2%Z, S w).

Definition is_one (v : Z) : M nat bool := fun w => (Returned (Z.eqb v 1), S w).

Definition note_value (v : Z) : M nat unit := fun w => (Returned tt, S w).

Definition note_error (e : error) : M nat unit := fun w => (Returned tt, S w).

(** The builtin [panic(q)] in a callback. *)
Definition panic {W A : Type} (q : any) : M W A := fun w => (Panicked q, w).

(** A callback of [OkOrElse] that returns the nil error. *)
Definition nil_fallback : M nat error := fun w => (Returned nil_error, S w).

(** The containers of the interface variant that the package itself can
    build: its fields are hidden, so every [Result[T]] starts as [Ok(v)] or
    [Error(d)] and every [Option[T]] as [Some(v)] or [None()]. *)
Definition result_built {T : Type} `{GoType T} (r : IfaceV.result T) : Prop :=
  (exists v : T, r = IfaceV.Ok v) \/ (exists d : any, r = IfaceV.Error d).

Definition option_built {T : Type} `{GoType T} (o : IfaceV.option T) : Prop :=
  (exists v : T, o = IfaceV.Some v) \/ o = IfaceV.None.

(** ** The contract of the Result container *)

Section ResultContract.
Context {T : Type} `{GoType T}.
#[local] Existing Instance IfaceV.result_is_Result.

(** C1. For every payload type and every value [v], the Result built by
    [Ok(v)] answers [IsOk() = true], [IsError() = false], [Value() = v] and
    [Error() = nil] through the methods of the interface; the struct variant
    shows the same through its fields. *)
Theorem Ok_observers (v : T) :
  (IfaceV.Result_IsOk (IfaceV.Ok v) = true /\
   IfaceV.Result_IsError (IfaceV.Ok v) = false /\
   IfaceV.Result_Value (IfaceV.Ok v) = v /\
   IfaceV.Result_Error (IfaceV.Ok v) = nil_error) /\
  (StructV.Result_IsOk (StructV.Ok v) = true /\
   StructV.Result_IsError (StructV.Ok v) = false /\
   StructV.Result_Value (StructV.Ok v) = v /\
   StructV.Result_Error (StructV.Ok v) = nil_error).
Proof. repeat split. Qed.

(** [covertError] never returns the nil error. *)
Lemma covertError_not_nil (d : any) : error_is_nil (covertError d) = false.
Proof. destruct d; reflexivity. Qed.

Lemma Error_IsError (d : any) :
  StructV.Result_IsError (StructV.Error (T := T) d) = true /\
  StructV.Result_IsOk (StructV.Error (T := T) d) = false.
Proof.
  unfold StructV.Result_IsError, StructV.Result_IsOk; cbn.
  now rewrite covertError_not_nil.
Qed.

(** C2. The conversions between the two containers: [Ok(v).Option()] is
    [Some(v)], [Error(d).Option()] is [None()], [Some(v).OkOr(d)] is [Ok(v)]
    and [None().OkOr(d)] is [Error(d)], for every value [v] and every
    descriptor [d]. *)
Theorem Option_OkOr_round_trip (v : T) (d : any) :
  StructV.Result_Option (StructV.Ok v) = StructV.Some v /\
  StructV.Result_Option (StructV.Error d) = StructV.None /\
  StructV.Option_OkOr (StructV.Some v) d = StructV.Ok v /\
  StructV.Option_OkOr StructV.None d = StructV.Error d.
Proof.
  repeat split.
  unfold StructV.Result_Option.
  now rewrite (proj2 (Error_IsError d)).
Qed.

End ResultContract.

(** ** Unwrapping with a message *)

Section Except.
Context {T : Type} `{GoType T}.

(** The two states exclude each other and leave no third. *)
Lemma IsError_negb_IsOk (r : StructV.Result T) :
  StructV.Result_IsError r = negb (StructV.Result_IsOk r).
Proof. reflexivity. Qed.

(** C3. [r.Except(msg)] returns the held value when [r] is in the success
    state; in the failure state it panics with an error whose message is
    [msg], a colon and a space, and the description of the failure
    descriptor. *)
Theorem Except_contract (r : StructV.Result T) (msg : string) :
  (StructV.Result_IsOk r = true ->
   StructV.Result_Except r msg = Returned (StructV.Result_Value r)) /\
  (StructV.Result_IsError r = true ->
   exists desc : string,
     error_Error (StructV.Result_Error r) = Returned desc /\
     StructV.Result_Except r msg = Panicked (to_any (Errorf_s_s msg desc)) /\
     panic_message (StructV.Result_Except r msg) = msg ++ ": " ++ desc).
Proof.
  destruct r as [v [|e]]; split; intros Hst; try discriminate Hst.
  - reflexivity.
  - exists (err_desc e). repeat split.
Qed.

(** [ExceptError] on a failure returns the descriptor. *)
Lemma ExceptError_failure (r : StructV.Result T) (msg : string) :
  StructV.Result_IsError r = true ->
  StructV.Result_ExceptError r msg = Returned (StructV.Result_Error r).
Proof. destruct r as [v [|e]]; intros Hst; [discriminate Hst | reflexivity]. Qed.

(** [ExceptError] on a success whose value has a dynamic type panics with
    [msg] and the name of that type. *)
Lemma ExceptError_success_typed (r : StructV.Result T) (msg name : string) :
  StructV.Result_IsOk r = true ->
  reflect_TypeOf (to_any (StructV.Result_Value r)) = a_rtype name ->
  StructV.Result_ExceptError r msg = Panicked (to_any (Errorf_s_s msg name)).
Proof.
  destruct r as [v [|e]]; intros Hst Hty; [|discriminate Hst].
  unfold StructV.Result_ExceptError, StructV.unwrapValueFailed; cbn in *.
  now rewrite Hty.
Qed.

End Except.

(** C4. [ExceptError] on [Ok[any](nil)]: the result is in the success state,
    the held value is the nil interface and has no dynamic type, and the
    call panics with the runtime's nil dereference whatever [msg] is; the
    message given by the caller is lost.  Both variants do so. *)
Theorem ExceptError_nil_payload (msg : string) :
  StructV.Result_IsOk (StructV.Ok nil) = true /\
  StructV.Result_ExceptError (StructV.Ok nil) msg = Panicked nil_dereference /\
  panic_message (StructV.Result_ExceptError (StructV.Ok nil) msg) =
    "runtime error: invalid memory address or nil pointer dereference" /\
  IfaceV.result_ExceptError (IfaceV.Ok nil) msg = Panicked nil_dereference.
Proof. repeat split. Qed.

(** The same call on payloads of a type that is no interface keeps the
    message, also when the payload is a nil slice. *)
Example ExceptError_int_payload :
  StructV.Result_ExceptError (StructV.Ok 42%Z) "error"
  = Panicked (to_any (Errorf_s_s "error" "int")).
Proof. reflexivity. Qed.

Example ExceptError_nil_slice_payload :
  StructV.Result_ExceptError (StructV.Ok (None : bytes)) "error"
  = Panicked (to_any (Errorf_s_s "error" "[]uint8")).
Proof. reflexivity. Qed.

Lemma Except_contract_witness :
  (StructV.Result_IsOk (StructV.Ok 42%Z) = true /\
   StructV.Result_Except (StructV.Ok 42%Z) "error" = Returned 42%Z) /\
  (StructV.Result_IsError (StructV.Error (T := Z) (to_any "boom")) = true /\
   exists desc : string,
     error_Error (StructV.Result_Error (StructV.Error (T := Z) (to_any "boom")))
       = Returned desc /\
     StructV.Result_Except (StructV.Error (T := Z) (to_any "boom")) "error"
       = Panicked (to_any (Errorf_s_s "error" desc)) /\
     panic_message
       (StructV.Result_Except (StructV.Error (T := Z) (to_any "boom")) "error")
       = "error" ++ ": " ++ desc).
Proof.
  split; (split; [reflexivity|]).
  - apply (proj1 (Except_contract (StructV.Ok 42%Z) "error")). reflexivity.
  - apply (proj2 (Except_contract (StructV.Error (T := Z) (to_any "boom")) "error")).
    reflexivity.
Defined.

(** ** Callbacks *)

Section Callbacks.
Context {T : Type} `{GoType T} {W : Type}.

Lemma calls_ret {A : Type} (a : A) (w : W) : calls (ret a) w = 0.
Proof. reflexivity. Qed.

Lemma calls_counted {A : Type} (c : M W A) (w : W) : calls (counted c) w = 1.
Proof. unfold calls, counted; cbn. now destruct (c w). Qed.

Lemma calls_counted_then {A B : Type} (c : M W A) (b : B) (w : W) :
  calls (counted c ;; ret b) w = 1.
Proof. unfold calls, counted, bind; cbn. now destruct (c w) as [[a|p] w']. Qed.

(** C5. [UnwrapOrElse(f)] of a Result and of an Option: in the success or
    present state it returns the held value and does not run [f]; in the
    failure or absent state it is one run of [f], whose result it returns.
    A call counter on [f] reads 0 in the first case and 1 in the second. *)
Theorem UnwrapOrElse_contract
  (r : StructV.Result T) (opt : StructV.Option T) (f : M W T) :
  (StructV.Result_IsOk r = true ->
   StructV.Result_UnwrapOrElse r f = ret (StructV.Result_Value r) /\
   forall w, calls (StructV.Result_UnwrapOrElse r (counted f)) w = 0) /\
  (StructV.Result_IsError r = true ->
   StructV.Result_UnwrapOrElse r f = f /\
   forall w, calls (StructV.Result_UnwrapOrElse r (counted f)) w = 1) /\
  (StructV.Option_IsSome opt = true ->
   StructV.Option_UnwrapOrElse opt f = ret (StructV.Option_Value opt) /\
   forall w, calls (StructV.Option_UnwrapOrElse opt (counted f)) w = 0) /\
  (StructV.Option_IsNone opt = true ->
   StructV.Option_UnwrapOrElse opt f = f /\
   forall w, calls (StructV.Option_UnwrapOrElse opt (counted f)) w = 1).
Proof.
  destruct r as [v [|e]], opt as [x [|]];
    repeat split; intros; try discriminate;
    solve [reflexivity | apply calls_counted].
Qed.

(** C6. [o.Filter(p)]: an absent [o] gives [None()] and [p] is not run; a
    present [o] gives [o] itself when [p(value)] returns true and [None()]
    when it returns false. *)
Theorem Filter_contract (opt : StructV.Option T) (p : T -> M W bool) :
  (StructV.Option_IsNone opt = true ->
   StructV.Option_Filter opt p = ret StructV.None /\
   forall w, calls (StructV.Option_Filter opt (fun x => counted (p x))) w = 0) /\
  (StructV.Option_IsSome opt = true ->
   forall w w',
     (p (StructV.Option_Value opt) w = (Returned true, w') ->
      StructV.Option_Filter opt p w = (Returned opt, w')) /\
     (p (StructV.Option_Value opt) w = (Returned false, w') ->
      StructV.Option_Filter opt p w = (Returned StructV.None, w'))).
Proof.
  destruct opt as [x [|]]; split; intros Hst; try discriminate Hst.
  - split; reflexivity.
  - intros w w'; split; intros Hp; cbn in Hp;
      unfold StructV.Option_Filter, and_then, bind; cbn; now rewrite Hp.
Qed.

(** C8. [Inspect] and [InspectError]: in the success state [Inspect] is one
    run of the callback on the held value and [InspectError] runs nothing;
    in the failure state [InspectError] is one run of the callback on the
    descriptor and [Inspect] runs nothing.  Whenever either returns, it
    returns the container it was called on, so that a second call sees the
    same state, value and descriptor as the first. *)
Theorem Inspect_contract
  (r : StructV.Result T) (f : T -> M W unit) (g : error -> M W unit) :
  (StructV.Result_IsOk r = true ->
   (forall w, StructV.Result_Inspect r f w
              = (f (StructV.Result_Value r) ;; ret r) w) /\
   StructV.Result_InspectError r g = ret r /\
   (forall w, calls (StructV.Result_Inspect r (fun x => counted (f x))) w = 1) /\
   (forall w,
      calls (StructV.Result_InspectError r (fun x => counted (g x))) w = 0)) /\
  (StructV.Result_IsError r = true ->
   StructV.Result_Inspect r f = ret r /\
   (forall w, StructV.Result_InspectError r g w
              = (g (StructV.Result_Error r) ;; ret r) w) /\
   (forall w, calls (StructV.Result_Inspect r (fun x => counted (f x))) w = 0) /\
   (forall w,
      calls (StructV.Result_InspectError r (fun x => counted (g x))) w = 1)) /\
  (forall w r1 w1,
     StructV.Result_Inspect r f w = (Returned r1, w1) ->
     r1 = r /\
     forall r2 w2,
       StructV.Result_Inspect r1 f w1 = (Returned r2, w2) -> r2 = r) /\
  (forall w r1 w1,
     StructV.Result_InspectError r g w = (Returned r1, w1) ->
     r1 = r /\
     forall r2 w2,
       StructV.Result_InspectError r1 g w1 = (Returned r2, w2) -> r2 = r).
Proof.
  assert (Hret : forall (c : M W unit) w r1 w1,
             (c ;; ret r) w = (Returned r1, w1) -> r1 = r).
  { intros c w r1 w1; unfold bind, ret.
    destruct (c w) as [[u|q] w']; intros E; inversion E; reflexivity. }
  split; [|split; [|split]].
  - destruct r as [v [|e]]; intros Hst; try discriminate Hst.
    repeat split. intros w. apply calls_counted_then.
  - destruct r as [v [|e]]; intros Hst; try discriminate Hst.
    repeat split. intros w. apply calls_counted_then.
  - intros w r1 w1 E1. apply Hret in E1. subst r1. split; [reflexivity|].
    intros r2 w2 E2. now apply Hret in E2.
  - intros w r1 w1 E1. apply Hret in E1. subst r1. split; [reflexivity|].
    intros r2 w2 E2. now apply Hret in E2.
Qed.

End Callbacks.

Lemma UnwrapOrElse_contract_witness :
  (StructV.Result_IsOk (StructV.Ok 1%Z) = true /\
   StructV.Result_UnwrapOrElse (StructV.Ok 1%Z) fallback_two
     = ret (StructV.Result_Value (StructV.Ok 1%Z)) /\
   forall w, calls (StructV.Result_UnwrapOrElse (StructV.Ok 1%Z)
                      (counted fallback_two)) w = 0) /\
  (StructV.Result_IsError (StructV.Error (T := Z) (to_any "error")) = true /\
   StructV.Result_UnwrapOrElse (StructV.Error (T := Z) (to_any "error"))
     fallback_two = fallback_two /\
   forall w, calls (StructV.Result_UnwrapOrElse
                      (StructV.Error (T := Z) (to_any "error"))
                      (counted fallback_two)) w = 1) /\
  (StructV.Option_IsSome (StructV.Some 1%Z) = true /\
   StructV.Option_UnwrapOrElse (StructV.Some 1%Z) fallback_two
     = ret (StructV.Option_Value (StructV.Some 1%Z)) /\
   forall w, calls (StructV.Option_UnwrapOrElse (StructV.Some 1%Z)
                      (counted fallback_two)) w = 0) /\
  (StructV.Option_IsNone (StructV.None (T := Z)) = true /\
   StructV.Option_UnwrapOrElse (StructV.None (T := Z)) fallback_two
     = fallback_two /\
   forall w, calls (StructV.Option_UnwrapOrElse (StructV.None (T := Z))
                      (counted fallback_two)) w = 1).
Proof.
  pose proof (UnwrapOrElse_contract (StructV.Ok 1%Z) (StructV.Some 1%Z)
                fallback_two) as [Hok [_ [Hsome _]]].
  pose proof (UnwrapOrElse_contract (StructV.Error (T := Z) (to_any "error"))
                (StructV.None (T := Z)) fallback_two) as [_ [Herr [_ Hnone]]].
  exact (conj (conj eq_refl (Hok eq_refl))
           (conj (conj eq_refl (Herr eq_refl))
              (conj (conj eq_refl (Hsome eq_refl))
                 (conj eq_refl (Hnone eq_refl))))).
Defined.

Lemma Filter_contract_witness :
  (StructV.Option_IsNone (StructV.None (T := Z)) = true /\
   StructV.Option_Filter (StructV.None (T := Z)) is_one = ret StructV.None) /\
  (StructV.Option_IsSome (StructV.Some 1%Z) = true /\
   is_one (StructV.Option_Value (StructV.Some 1%Z)) 0 = (Returned true, 1) /\
   StructV.Option_Filter (StructV.Some 1%Z) is_one 0
     = (Returned (StructV.Some 1%Z), 1)) /\
  (StructV.Option_IsSome (StructV.Some 5%Z) = true /\
   is_one (StructV.Option_Value (StructV.Some 5%Z)) 0 = (Returned false, 1) /\
   StructV.Option_Filter (StructV.Some 5%Z) is_one 0
     = (Returned StructV.None, 1)).
Proof.
  pose proof (Filter_contract (StructV.None (T := Z)) is_one) as [Hnone _].
  pose proof (Filter_contract (StructV.Some 1%Z) is_one) as [_ Hone].
  pose proof (Filter_contract (StructV.Some 5%Z) is_one) as [_ Hfive].
  exact (conj (conj eq_refl (proj1 (Hnone eq_refl)))
           (conj (conj eq_refl
                    (conj eq_refl (proj1 (Hone eq_refl 0 1) eq_refl)))
              (conj eq_refl
                 (conj eq_refl (proj2 (Hfive eq_refl 0 1) eq_refl))))).
Defined.

Lemma Inspect_contract_witness :
  (StructV.Result_IsOk (StructV.Ok 1%Z) = true /\
   StructV.Result_InspectError (StructV.Ok 1%Z) note_error
     = ret (StructV.Ok 1%Z)) /\
  (StructV.Result_IsError (StructV.Error (T := Z) (to_any "error")) = true /\
   StructV.Result_Inspect (StructV.Error (T := Z) (to_any "error")) note_value
     = ret (StructV.Error (to_any "error"))) /\
  (StructV.Result_Inspect (StructV.Ok 1%Z) note_value 0
     = (Returned (StructV.Ok 1%Z), 1) /\
   StructV.Ok 1%Z = StructV.Ok 1%Z) /\
  (StructV.Result_InspectError (StructV.Error (T := Z) (to_any "error"))
     note_error 0 = (Returned (StructV.Error (to_any "error")), 1) /\
   StructV.Error (T := Z) (to_any "error") = StructV.Error (to_any "error")).
Proof.
  pose proof (Inspect_contract (StructV.Ok 1%Z) note_value note_error)
    as [Hok [_ [Hsame _]]].
  pose proof (Inspect_contract (StructV.Error (T := Z) (to_any "error"))
                note_value note_error) as [_ [Herr [_ Hsame']]].
  exact (conj (conj eq_refl (proj1 (proj2 (Hok eq_refl))))
           (conj (conj eq_refl (proj1 (Herr eq_refl)))
              (conj (conj eq_refl
                       (proj1 (Hsame 0 (StructV.Ok 1%Z) 1 eq_refl)))
                 (conj eq_refl
                    (proj1 (Hsame' 0 (StructV.Error (to_any "error")) 1
                              eq_refl)))))).
Defined.

(** ** The failure normalizer *)

(** C7. [covertError] returns an error as it is; for every input the
    description of the result is what [%v] prints for the input; the string
    [boom] gives a descriptor with the description [boom]. *)
Theorem covertError_contract :
  (forall e : errval, covertError (boxed_error e) = an_error e) /\
  (forall e : errval, covertError (to_any (an_error e)) = an_error e) /\
  (forall ty text : string,
     covertError (boxed ty text) = an_error (errors_New text)) /\
  (forall x : any, error_Error (covertError x) = Returned (Sprintf_v x)) /\
  error_Error (covertError (to_any "boom")) = Returned "boom".
Proof.
  repeat split. intros x. destruct x; reflexivity.
Qed.

(** C9. [covertError(nil)] does not panic and is a non-nil error with the
    description [<nil>]; hence [Error[T](nil)] is in the failure state for
    every [T], in both variants. *)
Theorem covertError_nil :
  covertError nil = an_error (errors_New "<nil>") /\
  error_is_nil (covertError nil) = false /\
  error_Error (covertError nil) = Returned "<nil>" /\
  (forall (T : Type) (G : GoType T),
     StructV.Result_IsError (StructV.Error (T := T) nil) = true /\
     StructV.Result_IsOk (StructV.Error (T := T) nil) = false /\
     IfaceV.result_IsError (IfaceV.Error (T := T) nil) = true /\
     IfaceV.result_IsOk (IfaceV.Error (T := T) nil) = false).
Proof. repeat split. Qed.

(** ** The two variants side by side *)

Section Variants.
Context {T : Type} `{GoType T} {W : Type}.

Lemma constructors_agree (v : T) (d : any) :
  iface_of_Result (StructV.Ok v) = IfaceV.Ok v /\
  iface_of_Result (StructV.Error d) = IfaceV.Error d /\
  iface_of_Option (StructV.Some v) = IfaceV.Some v /\
  iface_of_Option StructV.None = IfaceV.None.
Proof. repeat split. Qed.

Lemma Result_observers_agree (r : StructV.Result T) :
  IfaceV.result_Value (iface_of_Result r) = StructV.Result_Value r /\
  IfaceV.result_Error (iface_of_Result r) = StructV.Result_Error r /\
  IfaceV.result_IsOk (iface_of_Result r) = StructV.Result_IsOk r /\
  IfaceV.result_IsError (iface_of_Result r) = StructV.Result_IsError r.
Proof. repeat split. Qed.

Lemma Result_unwraps_agree (r : StructV.Result T) (msg : string) (d : T) :
  IfaceV.result_Except (iface_of_Result r) msg = StructV.Result_Except r msg /\
  IfaceV.result_ExceptError (iface_of_Result r) msg
    = StructV.Result_ExceptError r msg /\
  outcome_agree (IfaceV.result_Unwrap (iface_of_Result r))
    (StructV.Result_Unwrap r) /\
  outcome_agree (IfaceV.result_UnwrapError (iface_of_Result r))
    (StructV.Result_UnwrapError r) /\
  IfaceV.result_UnwrapOr (iface_of_Result r) d = StructV.Result_UnwrapOr r d /\
  IfaceV.result_UnwrapOrDefault (iface_of_Result r)
    = StructV.Result_UnwrapOrDefault r.
Proof.
  destruct r as [v [|e]]; repeat split.
  unfold IfaceV.result_UnwrapError, StructV.Result_UnwrapError,
    IfaceV.result_ExceptError, StructV.Result_ExceptError,
    IfaceV.unwrapValueFailed, StructV.unwrapValueFailed; cbn.
  destruct (reflect_TypeOf (to_any v)); exact I.
Qed.

Lemma Result_callbacks_agree (r : StructV.Result T)
  (f : M W T) (g : T -> M W unit) (h : error -> M W unit) (w : W) :
  IfaceV.result_UnwrapOrElse (iface_of_Result r) f w
    = StructV.Result_UnwrapOrElse r f w /\
  IfaceV.result_Inspect (iface_of_Result r) g w
    = run_map iface_of_Result (StructV.Result_Inspect r g w) /\
  IfaceV.result_InspectError (iface_of_Result r) h w
    = run_map iface_of_Result (StructV.Result_InspectError r h w).
Proof.
  destruct r as [v [|e]]; repeat split; cbn;
    unfold IfaceV.result_Inspect, StructV.Result_Inspect,
      IfaceV.result_InspectError, StructV.Result_InspectError, bind; cbn;
    match goal with
    | |- context [match ?c with _ => _ end] => destruct c as [[u|q] w']
    end; reflexivity.
Qed.

Lemma Result_Option_agree (r : StructV.Result T) :
  IfaceV.result_Option (iface_of_Result r)
  = iface_of_Option (StructV.Result_Option r).
Proof. destruct r as [v [|e]]; reflexivity. Qed.

Lemma Option_observers_agree (o : StructV.Option T) (d : T) :
  IfaceV.option_Value (iface_of_Option o) = StructV.Option_Value o /\
  IfaceV.option_IsSome (iface_of_Option o) = StructV.Option_IsSome o /\
  IfaceV.option_IsNone (iface_of_Option o) = StructV.Option_IsNone o /\
  outcome_agree (IfaceV.option_Unwrap (iface_of_Option o))
    (StructV.Option_Unwrap o) /\
  IfaceV.option_UnwrapOr (iface_of_Option o) d = StructV.Option_UnwrapOr o d /\
  IfaceV.option_UnwrapOrDefault (iface_of_Option o)
    = StructV.Option_UnwrapOrDefault o.
Proof. destruct o as [v [|]]; repeat split. Qed.

Lemma Option_callbacks_agree (o : StructV.Option T)
  (f : M W T) (g : T -> M W unit) (e : M W error) (p : T -> M W bool)
  (w : W) :
  IfaceV.option_UnwrapOrElse (iface_of_Option o) f w
    = StructV.Option_UnwrapOrElse o f w /\
  IfaceV.option_Inspect (iface_of_Option o) g w
    = run_map iface_of_Option (StructV.Option_Inspect o g w) /\
  IfaceV.option_OkOrElse (iface_of_Option o) e w
    = run_map iface_of_Result (StructV.Option_OkOrElse o e w) /\
  IfaceV.option_Filter (iface_of_Option o) p w
    = run_map iface_of_Option (StructV.Option_Filter o p w).
Proof.
  destruct o as [v [|]]; repeat split; cbn;
    unfold IfaceV.option_Inspect, StructV.Option_Inspect,
      IfaceV.option_OkOrElse, StructV.Option_OkOrElse,
      IfaceV.option_Filter, StructV.Option_Filter, and_then, bind; cbn;
    try reflexivity.
  - destruct (e w) as [[x|q] w']; reflexivity.
  - destruct (g v w) as [[x|q] w']; reflexivity.
  - destruct (p v w) as [[[|]|q] w']; reflexivity.
Qed.

Lemma Option_OkOr_agree (o : StructV.Option T) (d : any) :
  IfaceV.option_OkOr (iface_of_Option o) d
  = iface_of_Result (StructV.Option_OkOr o d).
Proof. destruct o as [v [|]]; reflexivity. Qed.

(** Every container of the interface variant is the image of one of the
    struct variant. *)
Lemma iface_of_Result_onto (r' : IfaceV.result T) :
  exists r : StructV.Result T, iface_of_Result r = r'.
Proof.
  destruct r' as [v e]. now exists (StructV.mk_Result v e).
Qed.

Lemma iface_of_Option_onto (o' : IfaceV.option T) :
  exists o : StructV.Option T, iface_of_Option o = o'.
Proof.
  destruct o' as [v n]. now exists (StructV.mk_Option v n).
Qed.

End Variants.

(** The fixed messages of [Unwrap] name the type as each variant spells it,
    so the two panic values are not the same text. *)
Example Unwrap_messages_differ :
  StructV.Result_Unwrap (StructV.Error (T := Z) (to_any "error"))
  <> IfaceV.result_Unwrap (IfaceV.Error (T := Z) (to_any "error")).
Proof. discriminate. Qed.

(** C10. The struct variant and the interface variant agree: on what the
    four constructors build, on the state predicates, on every returned value
    and descriptor, on what [Except] and [ExceptError] panic with, on whether
    [Unwrap], [UnwrapError] and [Option.Unwrap] panic, and, for every
    operation that takes a callback, on the result together with the state
    the callbacks leave behind. *)
Theorem variants_agree (T : Type) (G : GoType T) (W : Type)
  (r : StructV.Result T) (o : StructV.Option T) (v dflt : T) (d : any)
  (msg : string) (f : M W T) (g : T -> M W unit) (h : error -> M W unit)
  (e : M W error) (p : T -> M W bool) (w : W) :
  (iface_of_Result (StructV.Ok v) = IfaceV.Ok v /\
   iface_of_Result (StructV.Error d) = IfaceV.Error d /\
   iface_of_Option (StructV.Some v) = IfaceV.Some v /\
   iface_of_Option StructV.None = IfaceV.None) /\
  (IfaceV.result_Value (iface_of_Result r) = StructV.Result_Value r /\
   IfaceV.result_Error (iface_of_Result r) = StructV.Result_Error r /\
   IfaceV.result_IsOk (iface_of_Result r) = StructV.Result_IsOk r /\
   IfaceV.result_IsError (iface_of_Result r) = StructV.Result_IsError r) /\
  (IfaceV.result_Except (iface_of_Result r) msg = StructV.Result_Except r msg /\
   IfaceV.result_ExceptError (iface_of_Result r) msg
     = StructV.Result_ExceptError r msg /\
   outcome_agree (IfaceV.result_Unwrap (iface_of_Result r))
     (StructV.Result_Unwrap r) /\
   outcome_agree (IfaceV.result_UnwrapError (iface_of_Result r))
     (StructV.Result_UnwrapError r) /\
   IfaceV.result_UnwrapOr (iface_of_Result r) dflt
     = StructV.Result_UnwrapOr r dflt /\
   IfaceV.result_UnwrapOrDefault (iface_of_Result r)
     = StructV.Result_UnwrapOrDefault r) /\
  (IfaceV.result_UnwrapOrElse (iface_of_Result r) f w
     = StructV.Result_UnwrapOrElse r f w /\
   IfaceV.result_Inspect (iface_of_Result r) g w
     = run_map iface_of_Result (StructV.Result_Inspect r g w) /\
   IfaceV.result_InspectError (iface_of_Result r) h w
     = run_map iface_of_Result (StructV.Result_InspectError r h w)) /\
  IfaceV.result_Option (iface_of_Result r)
    = iface_of_Option (StructV.Result_Option r) /\
  (IfaceV.option_Value (iface_of_Option o) = StructV.Option_Value o /\
   IfaceV.option_IsSome (iface_of_Option o) = StructV.Option_IsSome o /\
   IfaceV.option_IsNone (iface_of_Option o) = StructV.Option_IsNone o /\
   outcome_agree (IfaceV.option_Unwrap (iface_of_Option o))
     (StructV.Option_Unwrap o) /\
   IfaceV.option_UnwrapOr (iface_of_Option o) dflt
     = StructV.Option_UnwrapOr o dflt /\
   IfaceV.option_UnwrapOrDefault (iface_of_Option o)
     = StructV.Option_UnwrapOrDefault o) /\
  (IfaceV.option_UnwrapOrElse (iface_of_Option o) f w
     = StructV.Option_UnwrapOrElse o f w /\
   IfaceV.option_Inspect (iface_of_Option o) g w
     = run_map iface_of_Option (StructV.Option_Inspect o g w) /\
   IfaceV.option_OkOrElse (iface_of_Option o) e w
     = run_map iface_of_Result (StructV.Option_OkOrElse o e w) /\
   IfaceV.option_Filter (iface_of_Option o) p w
     = run_map iface_of_Option (StructV.Option_Filter o p w)) /\
  IfaceV.option_OkOr (iface_of_Option o) d
    = iface_of_Result (StructV.Option_OkOr o d).
Proof.
  split; [apply constructors_agree|].
  split; [apply Result_observers_agree|].
  split; [apply Result_unwraps_agree|].
  split; [apply Result_callbacks_agree|].
  split; [apply Result_Option_agree|].
  split; [apply Option_observers_agree|].
  split; [apply Option_callbacks_agree|].
  apply Option_OkOr_agree.
Qed.

(** ** Scenarios of the package's tests and documentation *)

Example Error_int_description :
  error_Error (IfaceV.result_Error (IfaceV.Error (T := Z) (to_any "error int")))
  = Returned "error int".
Proof. reflexivity. Qed.

Example covertError_of_int :
  error_Error (covertError (to_any 1%Z)) = Returned "1".
Proof. reflexivity. Qed.

Example covertError_of_error :
  covertError (to_any (Errorf_v (to_any "error")))
  = Errorf_v (to_any "error").
Proof. reflexivity. Qed.

Example Error_of_bytes :
  StructV.Result_IsError
    (StructV.Error (T := bytes) (to_any (Some (list_byte_of_string "hello"))))
  = true /\
  error_Error
    (StructV.Result_Error
       (StructV.Error (T := bytes) (to_any (Some (list_byte_of_string "hello")))))
  = Returned "[104 101 108 108 111]".
Proof. split; reflexivity. Qed.

Example Filter_key :
  StructV.Option_Filter (StructV.Some "key")
    (fun s => ret (Nat.eqb (String.length s) 3)) tt
  = (Returned (StructV.Some "key"), tt).
Proof. reflexivity. Qed.

Example Filter_five_six :
  StructV.Option_Filter (StructV.Some 5%Z) (fun x => ret (Z.eqb x 6)) tt
  = (Returned StructV.None, tt).
Proof. reflexivity. Qed.

Example Unwrap_None_panics :
  StructV.Option_Unwrap (StructV.None (T := Z))
  = Panicked (boxed "string" "called `Option.Unwrap()` on a `nil` value").
Proof. reflexivity. Qed.

Example UnwrapOrDefault_Error :
  StructV.Result_UnwrapOrDefault (StructV.Error (T := Z) (to_any "error")) = 0%Z.
Proof. reflexivity. Qed.

(** ** Further properties of the Result container *)

Section ResultMore.
Context {T : Type} `{GoType T}.

(** X1. [Error(d)] is in the failure state for every descriptor [d]; it
    holds the zero value of [T], and the description of its descriptor is
    the text that [%v] prints for [d]. *)
Theorem Error_constructor (d : any) :
  StructV.Result_IsError (StructV.Error (T := T) d) = true /\
  StructV.Result_IsOk (StructV.Error (T := T) d) = false /\
  StructV.Result_Value (StructV.Error (T := T) d) = zero /\
  error_Error (StructV.Result_Error (StructV.Error (T := T) d))
    = Returned (Sprintf_v d).
Proof. destruct d; repeat split. Qed.

(** X2. [Ok(v).Unwrap()] returns [v]; [Error(d).Unwrap()] panics with an
    error whose message is the fixed text of [Unwrap], a colon and a space,
    and the [%v] text of [d]. *)
Theorem Unwrap_of_constructors (v : T) (d : any) :
  StructV.Result_Unwrap (StructV.Ok v) = Returned v /\
  StructV.Result_Unwrap (StructV.Error (T := T) d)
    = Panicked
        (boxed_error
           (errors_New
              ("called `Result.Unwrap()` on an `Error` value: "
               ++ Sprintf_v d))).
Proof. destruct d; split; reflexivity. Qed.

(** X3. [ExceptError] and [UnwrapError] panic on every success, whatever the
    held value is; when they return, the result is a failure and what they
    return is its descriptor, which is not nil. *)
Theorem ExceptError_returns_only_descriptors
  (r : StructV.Result T) (msg : string) :
  (StructV.Result_IsOk r = true ->
   (exists q, StructV.Result_ExceptError r msg = Panicked q) /\
   (exists q, StructV.Result_UnwrapError r = Panicked q)) /\
  (forall e : error,
     StructV.Result_ExceptError r msg = Returned e
     \/ StructV.Result_UnwrapError r = Returned e ->
     StructV.Result_IsError r = true /\
     e = StructV.Result_Error r /\
     error_is_nil e = false).
Proof.
  destruct r as [v [|e0]]; split.
  - intros _.
    unfold StructV.Result_UnwrapError, StructV.Result_ExceptError,
      StructV.unwrapValueFailed; cbn.
    destruct (reflect_TypeOf (to_any v)); cbn; split; eexists; reflexivity.
  - intros e.
    unfold StructV.Result_UnwrapError, StructV.Result_ExceptError,
      StructV.unwrapValueFailed; cbn.
    destruct (reflect_TypeOf (to_any v)); cbn; intros [E|E]; discriminate E.
  - intros Hst; discriminate Hst.
  - intros e [E|E]; cbn in E; inversion E; repeat split.
Qed.

(** X4. The two helpers that raise the panics never return: not on a nil
    error, where the call of [Error()] fails first, and not on a nil
    interface value, where the call of [String()] does. *)
Theorem unwrap_helpers_never_return (msg : string) (err : error) (value : T) :
  (exists q, StructV.unwrapErrorFailed msg err = Panicked q) /\
  (exists q, StructV.unwrapValueFailed msg value = Panicked q) /\
  StructV.unwrapErrorFailed msg nil_error = Panicked nil_dereference /\
  StructV.unwrapValueFailed msg nil = Panicked nil_dereference.
Proof.
  repeat split.
  - destruct err; eexists; reflexivity.
  - unfold StructV.unwrapValueFailed.
    destruct (reflect_TypeOf (to_any value)); eexists; reflexivity.
Qed.

(** X5. The fallbacks are one family: [UnwrapOrDefault()] is [UnwrapOr] of
    the zero value, and [UnwrapOrElse] of a function that only returns [d]
    is [UnwrapOr(d)]; for the Result and for the Option. *)
Theorem UnwrapOr_family
  (W : Type) (r : StructV.Result T) (o : StructV.Option T) (d : T) :
  StructV.Result_UnwrapOrDefault r = StructV.Result_UnwrapOr r zero /\
  StructV.Result_UnwrapOrElse (W := W) r (ret d)
    = ret (StructV.Result_UnwrapOr r d) /\
  StructV.Option_UnwrapOrDefault o = StructV.Option_UnwrapOr o zero /\
  StructV.Option_UnwrapOrElse (W := W) o (ret d)
    = ret (StructV.Option_UnwrapOr o d).
Proof. destruct r as [v [|e]], o as [x [|]]; repeat split. Qed.

(** X6. [Unwrap] and [UnwrapOr] see the same state: when [Unwrap] returns
    [v], [UnwrapOr(d)] is [v] for every [d]; when [Unwrap] panics,
    [UnwrapOr(d)] is [d]. *)
Theorem Unwrap_UnwrapOr
  (r : StructV.Result T) (o : StructV.Option T) (d : T) :
  match StructV.Result_Unwrap r with
  | Returned v => StructV.Result_UnwrapOr r d = v
  | Panicked _ => StructV.Result_UnwrapOr r d = d
  end /\
  match StructV.Option_Unwrap o with
  | Returned v => StructV.Option_UnwrapOr o d = v
  | Panicked _ => StructV.Option_UnwrapOr o d = d
  end.
Proof. destruct r as [v [|e]], o as [x [|]]; split; reflexivity. Qed.

(** X7. Exactly one of [IsOk] and [IsError] holds of a Result, and exactly
    one of [IsSome] and [IsNone] of an Option, also of structs that a
    caller fills in by hand. *)
Theorem states_exclusive (r : StructV.Result T) (o : StructV.Option T) :
  xorb (StructV.Result_IsOk r) (StructV.Result_IsError r) = true /\
  xorb (StructV.Option_IsSome o) (StructV.Option_IsNone o) = true.
Proof. destruct r as [v [|e]], o as [x [|]]; split; reflexivity. Qed.

End ResultMore.

Lemma ExceptError_returns_only_descriptors_witness :
  (StructV.Result_IsOk (StructV.Ok 42%Z) = true /\
   (exists q, StructV.Result_ExceptError (StructV.Ok 42%Z) "error" = Panicked q) /\
   (exists q, StructV.Result_UnwrapError (StructV.Ok 42%Z) = Panicked q)) /\
  (StructV.Result_ExceptError (StructV.Error (T := Z) (to_any "boom")) "error"
     = Returned (Errorf_v (to_any "boom")) /\
   StructV.Result_IsError (StructV.Error (T := Z) (to_any "boom")) = true /\
   Errorf_v (to_any "boom")
     = StructV.Result_Error (StructV.Error (T := Z) (to_any "boom")) /\
   error_is_nil (Errorf_v (to_any "boom")) = false).
Proof.
  pose proof (ExceptError_returns_only_descriptors (StructV.Ok 42%Z) "error")
    as [Hok _].
  pose proof (ExceptError_returns_only_descriptors
                (StructV.Error (T := Z) (to_any "boom")) "error") as [_ Herr].
  exact (conj (conj eq_refl (Hok eq_refl))
           (conj eq_refl (Herr (Errorf_v (to_any "boom")) (or_introl eq_refl)))).
Defined.

(** ** Further properties of the Option container and of the conversions *)

Section OptionMore.
Context {T : Type} `{GoType T}.
#[local] Existing Instance IfaceV.option_is_Option.

(** X8. Through the methods of the interface, [Some(v)] answers
    [IsSome() = true], [IsNone() = false], [Value() = v] and [Unwrap() = v];
    [None()] answers [IsSome() = false], [IsNone() = true], [Value()] the
    zero value, and [Unwrap()] panics with a string. *)
Theorem Some_None_observers (v : T) :
  (IfaceV.Option_IsSome (IfaceV.Some v) = true /\
   IfaceV.Option_IsNone (IfaceV.Some v) = false /\
   IfaceV.Option_Value (IfaceV.Some v) = v /\
   IfaceV.Option_Unwrap (IfaceV.Some v) = Returned v) /\
  (IfaceV.Option_IsSome (IfaceV.None (T := T)) = false /\
   IfaceV.Option_IsNone (IfaceV.None (T := T)) = true /\
   IfaceV.Option_Value (IfaceV.None (T := T)) = zero /\
   IfaceV.Option_Unwrap (IfaceV.None (T := T))
     = Panicked
         (boxed "string" "called `option.Unwrap()` on a `nil` value")).
Proof. repeat split. Qed.

(** X9. From a Result to an Option and back: a success comes back as it
    was; a failure comes back as [Error(d)], with the descriptor given to
    [OkOr] in place of its own. *)
Theorem Option_then_OkOr (r : StructV.Result T) (d : any) :
  (StructV.Result_IsOk r = true ->
   StructV.Option_OkOr (StructV.Result_Option r) d = r) /\
  (StructV.Result_IsError r = true ->
   StructV.Option_OkOr (StructV.Result_Option r) d = StructV.Error d).
Proof.
  destruct r as [v [|e]]; split; intros Hst; try discriminate Hst; reflexivity.
Qed.

(** X10. From an Option to a Result and back: a present option comes back
    as it was, an absent one comes back as [None()], whatever the
    descriptor; the state is the same in both cases. *)
Theorem OkOr_then_Option (o : StructV.Option T) (d : any) :
  (StructV.Option_IsSome o = true ->
   StructV.Result_Option (StructV.Option_OkOr o d) = o) /\
  (StructV.Option_IsNone o = true ->
   StructV.Result_Option (StructV.Option_OkOr o d) = StructV.None) /\
  StructV.Option_IsSome (StructV.Result_Option (StructV.Option_OkOr o d))
    = StructV.Option_IsSome o.
Proof.
  destruct o as [v [|]]; (split; [|split]); intros; try discriminate;
    try reflexivity;
    unfold StructV.Option_OkOr, StructV.Result_Option; cbn;
    now rewrite (proj2 (Error_IsError d)).
Qed.

(** X11. The conversions keep the state and what the fallbacks return:
    [r.Option()] is present exactly when [r] is a success and unwraps like
    [r]; [o.OkOr(d)] is a success exactly when [o] is present and unwraps
    like [o]. *)
Theorem conversions_keep_state
  (r : StructV.Result T) (o : StructV.Option T) (d : any) (x : T) :
  (StructV.Option_IsSome (StructV.Result_Option r) = StructV.Result_IsOk r /\
   StructV.Option_UnwrapOr (StructV.Result_Option r) x
     = StructV.Result_UnwrapOr r x /\
   StructV.Option_UnwrapOrDefault (StructV.Result_Option r)
     = StructV.Result_UnwrapOrDefault r /\
   outcome_agree (StructV.Option_Unwrap (StructV.Result_Option r))
     (StructV.Result_Unwrap r)) /\
  (StructV.Result_IsOk (StructV.Option_OkOr o d) = StructV.Option_IsSome o /\
   StructV.Result_UnwrapOr (StructV.Option_OkOr o d) x
     = StructV.Option_UnwrapOr o x /\
   StructV.Result_UnwrapOrDefault (StructV.Option_OkOr o d)
     = StructV.Option_UnwrapOrDefault o /\
   outcome_agree (StructV.Result_Unwrap (StructV.Option_OkOr o d))
     (StructV.Option_Unwrap o)).
Proof.
  split.
  - destruct r as [v [|e]]; repeat split.
  - destruct o as [v [|]]; [|repeat split].
    unfold StructV.Option_OkOr, StructV.Result_IsOk, StructV.Result_UnwrapOr,
      StructV.Result_UnwrapOrDefault, StructV.Result_Unwrap,
      StructV.Result_Except, StructV.Result_IsError, StructV.Result_IsOk; cbn.
    destruct d; repeat split.
Qed.

(** X12. Normalizing is idempotent: the descriptor of [Error(d)], given to
    [covertError] or to [Error] again, comes back as it is. *)
Theorem covertError_idempotent (d : any) :
  covertError (to_any (covertError d)) = covertError d /\
  StructV.Error (T := T)
    (to_any (StructV.Result_Error (StructV.Error (T := T) d)))
  = StructV.Error d.
Proof. destruct d; split; reflexivity. Qed.

End OptionMore.

Lemma Option_then_OkOr_witness :
  (StructV.Result_IsOk (StructV.Ok 1%Z) = true /\
   StructV.Option_OkOr (StructV.Result_Option (StructV.Ok 1%Z)) (to_any "gone")
     = StructV.Ok 1%Z) /\
  (StructV.Result_IsError (StructV.Error (T := Z) (to_any "first")) = true /\
   StructV.Option_OkOr
     (StructV.Result_Option (StructV.Error (T := Z) (to_any "first")))
     (to_any "gone")
   = StructV.Error (to_any "gone")).
Proof.
  exact (conj
           (conj eq_refl
              (proj1 (Option_then_OkOr (StructV.Ok 1%Z) (to_any "gone"))
                 eq_refl))
           (conj eq_refl
              (proj2 (Option_then_OkOr (StructV.Error (T := Z) (to_any "first"))
                        (to_any "gone")) eq_refl))).
Defined.

Lemma OkOr_then_Option_witness :
  (StructV.Option_IsSome (StructV.Some 1%Z) = true /\
   StructV.Result_Option (StructV.Option_OkOr (StructV.Some 1%Z) (to_any "gone"))
     = StructV.Some 1%Z) /\
  (StructV.Option_IsNone (StructV.mk_Option 7%Z true) = true /\
   StructV.Result_Option
     (StructV.Option_OkOr (StructV.mk_Option 7%Z true) (to_any "gone"))
   = StructV.None).
Proof.
  exact (conj
           (conj eq_refl
              (proj1 (OkOr_then_Option (StructV.Some 1%Z) (to_any "gone"))
                 eq_refl))
           (conj eq_refl
              (proj1 (proj2 (OkOr_then_Option (StructV.mk_Option 7%Z true)
                               (to_any "gone"))) eq_refl))).
Defined.

(** ** Further properties of the operations that take a callback *)

Section CallbacksMore.
Context {T : Type} `{GoType T} {W : Type}.

(** X13. [OkOrElse(f)]: on a present option it is [Ok(value)] and [f] is not
    run; on an absent one [f] is run once and what it returns is given to
    [Error], so that a nil error from [f] still gives a failure, with the
    description [<nil>]. *)
Theorem OkOrElse_contract (o : StructV.Option T) (f : M W error) :
  (StructV.Option_IsSome o = true ->
   StructV.Option_OkOrElse o f = ret (StructV.Ok (StructV.Option_Value o)) /\
   forall w, calls (StructV.Option_OkOrElse o (counted f)) w = 0) /\
  (StructV.Option_IsNone o = true ->
   (forall w, calls (StructV.Option_OkOrElse o (counted f)) w = 1) /\
   (forall w e w',
      f w = (Returned e, w') ->
      StructV.Option_OkOrElse o f w
        = (Returned (StructV.Option_OkOr o (to_any e)), w') /\
      StructV.Result_IsError (StructV.Option_OkOr o (to_any e)) = true) /\
   (forall w w',
      f w = (Returned nil_error, w') ->
      StructV.Option_OkOrElse o f w
        = (Returned (StructV.mk_Result zero (an_error (errors_New "<nil>"))),
           w'))).
Proof.
  destruct o as [v [|]]; split; intros Hst; try discriminate Hst.
  - split; [|split].
    + intros w. unfold StructV.Option_OkOrElse; cbn.
      unfold calls, counted, bind; cbn. now destruct (f w) as [[e|q] w'].
    + intros w e w' Hf. split.
      * unfold StructV.Option_OkOrElse, bind; cbn. now rewrite Hf.
      * unfold StructV.Option_OkOr; cbn. apply Error_IsError.
    + intros w w' Hf. unfold StructV.Option_OkOrElse, bind; cbn.
      now rewrite Hf.
  - split; reflexivity.
Qed.

(** X14. [Option.Inspect(f)]: on a present option it is one run of [f] on
    the held value, on an absent one nothing is run; whenever it returns, it
    returns the option it was called on. *)
Theorem Option_Inspect_contract (o : StructV.Option T) (f : T -> M W unit) :
  (StructV.Option_IsSome o = true ->
   (forall w, StructV.Option_Inspect o f w
              = (f (StructV.Option_Value o) ;; ret o) w) /\
   (forall w, calls (StructV.Option_Inspect o (fun x => counted (f x))) w = 1)) /\
  (StructV.Option_IsNone o = true ->
   StructV.Option_Inspect o f = ret o /\
   (forall w, calls (StructV.Option_Inspect o (fun x => counted (f x))) w = 0)) /\
  (forall w o1 w1,
     StructV.Option_Inspect o f w = (Returned o1, w1) -> o1 = o).
Proof.
  split; [|split].
  - destruct o as [v [|]]; intros Hst; try discriminate Hst.
    split; [reflexivity|]. intros w. apply calls_counted_then.
  - destruct o as [v [|]]; intros Hst; try discriminate Hst.
    split; reflexivity.
  - intros w o1 w1. unfold StructV.Option_Inspect, bind, ret.
    destruct (if StructV.Option_IsSome o then _ else _) as [[u|q] w'];
      intros E; inversion E; reflexivity.
Qed.

(** X15. [Filter] with a predicate that only computes: the result is the
    option itself when it is present and the predicate holds of its value,
    and [None()] otherwise; filtering twice by the same predicate is
    filtering once, and filtering by [p] and then by [q] is filtering by
    their conjunction. *)
Theorem Filter_pure (o : StructV.Option T) (p q : T -> bool) (w : W) :
  StructV.Option_Filter o (fun x => ret (p x)) w
    = (Returned
         (if andb (StructV.Option_IsSome o) (p (StructV.Option_Value o))
          then o else StructV.None), w) /\
  (o1 <- StructV.Option_Filter o (fun x => ret (p x)) ;;
   StructV.Option_Filter o1 (fun x => ret (p x))) w
    = StructV.Option_Filter o (fun x => ret (p x)) w /\
  (o1 <- StructV.Option_Filter o (fun x => ret (p x)) ;;
   StructV.Option_Filter o1 (fun x => ret (q x))) w
    = StructV.Option_Filter o (fun x => ret (andb (p x) (q x))) w.
Proof.
  destruct o as [v [|]]; unfold StructV.Option_Filter, and_then, bind, ret;
    cbn; repeat split; destruct (p v) eqn:Ep; cbn; rewrite ?Ep;
    try reflexivity; destruct (q v); reflexivity.
Qed.

(** X16. [Filter] never makes up a value: when it returns a present
    option, that option is the one it was called on, and the predicate has
    returned true on its value. *)
Theorem Filter_present_result
  (o : StructV.Option T) (p : T -> M W bool) (w : W)
  (o1 : StructV.Option T) (w1 : W) :
  StructV.Option_Filter o p w = (Returned o1, w1) ->
  StructV.Option_IsSome o1 = true ->
  o1 = o /\
  StructV.Option_IsSome o = true /\
  p (StructV.Option_Value o) w = (Returned true, w1).
Proof.
  destruct o as [v [|]]; unfold StructV.Option_Filter, and_then, bind, ret; cbn.
  - intros E Hs. inversion E; subst. discriminate Hs.
  - destruct (p v w) as [[[|]|q] w'] eqn:Ep; intros E Hs; inversion E; subst.
    + repeat split.
    + discriminate Hs.
Qed.

(** X17. A panic of the callback is the panic of the operation, with the
    same value and the state the callback left: for [Inspect] and
    [InspectError] in the matching state, for [UnwrapOrElse] on a failure,
    for [OkOrElse] on an absent option and for [Filter] on a present one. *)
Theorem callback_panic_propagates
  (r : StructV.Result T) (o : StructV.Option T)
  (f : T -> M W unit) (g : error -> M W unit) (k : M W T) (e : M W error)
  (p : T -> M W bool) (w w' : W) (x : any) :
  (StructV.Result_IsOk r = true ->
   f (StructV.Result_Value r) w = (Panicked x, w') ->
   StructV.Result_Inspect r f w = (Panicked x, w')) /\
  (StructV.Result_IsError r = true ->
   (g (StructV.Result_Error r) w = (Panicked x, w') ->
    StructV.Result_InspectError r g w = (Panicked x, w')) /\
   (k w = (Panicked x, w') ->
    StructV.Result_UnwrapOrElse r k w = (Panicked x, w'))) /\
  (StructV.Option_IsNone o = true ->
   e w = (Panicked x, w') ->
   StructV.Option_OkOrElse o e w = (Panicked x, w')) /\
  (StructV.Option_IsSome o = true ->
   (p (StructV.Option_Value o) w = (Panicked x, w') ->
    StructV.Option_Filter o p w = (Panicked x, w')) /\
   (f (StructV.Option_Value o) w = (Panicked x, w') ->
    StructV.Option_Inspect o f w = (Panicked x, w'))).
Proof.
  destruct r as [v [|e0]], o as [y [|]];
    repeat split; intros; try discriminate;
    unfold StructV.Result_Inspect, StructV.Result_InspectError,
      StructV.Result_UnwrapOrElse, StructV.Option_OkOrElse,
      StructV.Option_Filter, StructV.Option_Inspect, and_then, bind in *;
    cbn in *;
    match goal with
    | E : _ = (Panicked _, _) |- _ => rewrite E; reflexivity
    end.
Qed.

End CallbacksMore.

Lemma OkOrElse_contract_witness :
  (StructV.Option_IsSome (StructV.Some 1%Z) = true /\
   StructV.Option_OkOrElse (StructV.Some 1%Z) nil_fallback
     = ret (StructV.Ok (StructV.Option_Value (StructV.Some 1%Z)))) /\
  (StructV.Option_IsNone (StructV.None (T := Z)) = true /\
   nil_fallback 0 = (Returned nil_error, 1) /\
   StructV.Option_OkOrElse (StructV.None (T := Z)) nil_fallback 0
     = (Returned (StructV.mk_Result zero (an_error (errors_New "<nil>"))), 1)).
Proof.
  pose proof (OkOrElse_contract (StructV.Some 1%Z) nil_fallback) as [Hsome _].
  pose proof (OkOrElse_contract (StructV.None (T := Z)) nil_fallback)
    as [_ Hnone].
  exact (conj (conj eq_refl (proj1 (Hsome eq_refl)))
           (conj eq_refl
              (conj eq_refl
                 (proj2 (proj2 (Hnone eq_refl)) 0 1 eq_refl)))).
Defined.

Lemma Option_Inspect_contract_witness :
  (StructV.Option_IsSome (StructV.Some 1%Z) = true /\
   forall w, calls (StructV.Option_Inspect (StructV.Some 1%Z)
                      (fun x => counted (note_value x))) w = 1) /\
  (StructV.Option_IsNone (StructV.None (T := Z)) = true /\
   StructV.Option_Inspect (StructV.None (T := Z)) note_value
     = ret StructV.None) /\
  (StructV.Option_Inspect (StructV.Some 1%Z) note_value 0
     = (Returned (StructV.Some 1%Z), 1) /\
   StructV.Some 1%Z = StructV.Some 1%Z).
Proof.
  pose proof (Option_Inspect_contract (StructV.Some 1%Z) note_value)
    as [Hsome [_ Hsame]].
  pose proof (Option_Inspect_contract (StructV.None (T := Z)) note_value)
    as [_ [Hnone _]].
  exact (conj (conj eq_refl (proj2 (Hsome eq_refl)))
           (conj (conj eq_refl (proj1 (Hnone eq_refl)))
              (conj eq_refl (Hsame 0 (StructV.Some 1%Z) 1 eq_refl)))).
Defined.

Lemma Filter_present_result_witness :
  StructV.Option_Filter (StructV.Some 1%Z) is_one 0
    = (Returned (StructV.Some 1%Z), 1) /\
  StructV.Option_IsSome (StructV.Some 1%Z) = true /\
  StructV.Some 1%Z = StructV.Some 1%Z /\
  StructV.Option_IsSome (StructV.Some 1%Z) = true /\
  is_one (StructV.Option_Value (StructV.Some 1%Z)) 0 = (Returned true, 1).
Proof.
  exact (conj eq_refl
           (conj eq_refl
              (Filter_present_result (StructV.Some 1%Z) is_one 0
                 (StructV.Some 1%Z) 1 eq_refl eq_refl))).
Defined.

Lemma callback_panic_propagates_witness :
  (StructV.Result_IsOk (StructV.Ok 1%Z) = true /\
   StructV.Result_Inspect (StructV.Ok 1%Z)
     (fun _ => panic (to_any "boom")) 0
   = (Panicked (to_any "boom"), 0)) /\
  (StructV.Result_IsError (StructV.Error (T := Z) (to_any "error")) = true /\
   StructV.Result_InspectError (StructV.Error (T := Z) (to_any "error"))
     (fun _ => panic (to_any "boom")) 0
   = (Panicked (to_any "boom"), 0) /\
   StructV.Result_UnwrapOrElse (StructV.Error (T := Z) (to_any "error"))
     (panic (to_any "boom")) 0
   = (Panicked (to_any "boom"), 0)) /\
  (StructV.Option_IsNone (StructV.None (T := Z)) = true /\
   StructV.Option_OkOrElse (StructV.None (T := Z)) (panic (to_any "boom")) 0
   = (Panicked (to_any "boom"), 0)) /\
  (StructV.Option_IsSome (StructV.Some 1%Z) = true /\
   StructV.Option_Filter (StructV.Some 1%Z)
     (fun _ => panic (to_any "boom")) 0
   = (Panicked (to_any "boom"), 0) /\
   StructV.Option_Inspect (StructV.Some 1%Z)
     (fun _ => panic (to_any "boom")) 0
   = (Panicked (to_any "boom"), 0)).
Proof.
  pose proof (callback_panic_propagates
                (StructV.Ok 1%Z) (StructV.Some 1%Z)
                (fun _ => panic (to_any "boom"))
                (fun _ => panic (to_any "boom"))
                (panic (to_any "boom")) (panic (to_any "boom"))
                (fun _ => panic (to_any "boom")) 0 0 (to_any "boom"))
    as [Hok [_ [_ Hsome]]].
  pose proof (callback_panic_propagates
                (StructV.Error (T := Z) (to_any "error"))
                (StructV.None (T := Z))
                (fun _ => panic (to_any "boom"))
                (fun _ => panic (to_any "boom"))
                (panic (to_any "boom")) (panic (to_any "boom"))
                (fun _ => panic (to_any "boom")) 0 0 (to_any "boom"))
    as [_ [Herr [Hnone _]]].
  exact (conj (conj eq_refl (Hok eq_refl eq_refl))
           (conj (conj eq_refl
                    (conj (proj1 (Herr eq_refl) eq_refl)
                       (proj2 (Herr eq_refl) eq_refl)))
              (conj (conj eq_refl (Hnone eq_refl eq_refl))
                 (conj eq_refl
                    (conj (proj1 (Hsome eq_refl) eq_refl)
                       (proj2 (Hsome eq_refl) eq_refl)))))).
Defined.

(** ** Chains and the containers of the interface variant *)

Section Chains.
Context {T : Type} `{GoType T} {W : Type}.

(** X18. In the chain [r.Inspect(f).InspectError(g)] exactly one of the two
    callbacks runs, once, whatever the state of [r] is. *)
Theorem Inspect_chain_runs_one
  (r : StructV.Result T) (f : T -> M W unit) (g : error -> M W unit) (w : W) :
  calls (r1 <- StructV.Result_Inspect r (fun x => counted (f x)) ;;
         StructV.Result_InspectError r1 (fun x => counted (g x))) w = 1.
Proof.
  destruct r as [v [|e]];
    unfold calls, StructV.Result_Inspect, StructV.Result_InspectError,
      counted, bind, ret; cbn.
  - now destruct (f v w) as [[u|q] w'].
  - now destruct (g (an_error e) w) as [[u|q] w'].
Qed.

(** X19. What the interface variant builds keeps the zero value where no
    value is held: of a container built by the constructors, [Value()] is
    [UnwrapOrDefault()], and it is the zero value in the failure or absent
    state; [Option()], [OkOr], [OkOrElse] and [Filter] return such
    containers again. *)
Theorem built_containers
  (r : IfaceV.result T) (o : IfaceV.option T) (d : any) :
  result_built r -> option_built o ->
  (IfaceV.result_IsError r = true -> IfaceV.result_Value r = zero) /\
  (IfaceV.option_IsNone o = true -> IfaceV.option_Value o = zero) /\
  IfaceV.result_Value r = IfaceV.result_UnwrapOrDefault r /\
  IfaceV.option_Value o = IfaceV.option_UnwrapOrDefault o /\
  option_built (IfaceV.result_Option r) /\
  result_built (IfaceV.option_OkOr o d) /\
  (forall (p : T -> M W bool) w o1 w1,
     IfaceV.option_Filter o p w = (Returned o1, w1) -> option_built o1) /\
  (forall (e : M W error) w r1 w1,
     IfaceV.option_OkOrElse o e w = (Returned r1, w1) -> result_built r1).
Proof.
  intros Hr Ho.
  assert (Hfilter : forall (p : T -> M W bool) w o1 w1,
             IfaceV.option_Filter o p w = (Returned o1, w1) ->
             o1 = o \/ o1 = IfaceV.None).
  { intros p w o1 w1.
    unfold IfaceV.option_Filter, and_then, bind, ret.
    destruct (IfaceV.option_IsSome o).
    - destruct (p (IfaceV.option_value o) w) as [[[|]|q] w'];
        intros E; inversion E; auto.
    - intros E; inversion E; auto. }
  assert (Horelse : forall (e : M W error) w r1 w1,
             IfaceV.option_OkOrElse o e w = (Returned r1, w1) ->
             result_built r1).
  { intros e w r1 w1.
    unfold IfaceV.option_OkOrElse, bind, ret.
    destruct (IfaceV.option_IsSome o).
    - intros E; inversion E. left; eexists; reflexivity.
    - destruct (e w) as [[z|q] w']; intros E; inversion E.
      right; eexists; reflexivity. }
  assert (Hokor : result_built (IfaceV.option_OkOr o d)).
  { unfold IfaceV.option_OkOr. destruct (IfaceV.option_IsSome o).
    - left; eexists; reflexivity.
    - right; eexists; reflexivity. }
  assert (Hopt : option_built (IfaceV.result_Option r)).
  { unfold IfaceV.result_Option. destruct (IfaceV.result_IsOk r).
    - left; eexists; reflexivity.
    - now right. }
  assert (Hrv : IfaceV.result_IsError r = true -> IfaceV.result_Value r = zero).
  { destruct Hr as [[v ->]|[x ->]]; [discriminate | reflexivity]. }
  assert (Hov : IfaceV.option_IsNone o = true -> IfaceV.option_Value o = zero).
  { destruct Ho as [[y ->]| ->]; [discriminate | reflexivity]. }
  repeat split; try assumption.
  - unfold IfaceV.result_UnwrapOrDefault.
    destruct (IfaceV.result_IsOk r) eqn:E; [reflexivity|].
    apply Hrv. unfold IfaceV.result_IsError. unfold IfaceV.result_IsOk in E.
    now rewrite E.
  - unfold IfaceV.option_UnwrapOrDefault.
    destruct (IfaceV.option_IsNone o) eqn:E; [|reflexivity].
    now apply Hov.
  - intros p w o1 w1 E. destruct (Hfilter p w o1 w1 E) as [-> | ->];
      [assumption | now right].
Qed.

End Chains.

Lemma built_containers_witness :
  result_built (IfaceV.Error (T := Z) (to_any "boom")) /\
  option_built (IfaceV.None (T := Z)) /\
  (IfaceV.result_IsError (IfaceV.Error (T := Z) (to_any "boom")) = true /\
   IfaceV.result_Value (IfaceV.Error (T := Z) (to_any "boom")) = zero) /\
  IfaceV.result_Value (IfaceV.Error (T := Z) (to_any "boom"))
    = IfaceV.result_UnwrapOrDefault (IfaceV.Error (T := Z) (to_any "boom")).
Proof.
  pose (Hr := or_intror (ex_intro _ (to_any "boom") eq_refl)
        : result_built (IfaceV.Error (T := Z) (to_any "boom"))).
  pose (Ho := or_intror eq_refl : option_built (IfaceV.None (T := Z))).
  pose proof (built_containers (W := nat) _ _ (to_any "gone") Hr Ho)
    as [Hzero [_ [Hdefault _]]].
  exact (conj Hr (conj Ho (conj (conj eq_refl (Hzero eq_refl)) Hdefault))).
Defined.

(** A struct of the other variant that a caller fills in by hand need not
    be of this kind: its field [Value] can differ from what
    [UnwrapOrDefault()] returns. *)
Example hand_filled_Result :
  StructV.Result_Value (StructV.mk_Result 5%Z (Errorf_v (to_any "error"))) = 5%Z /\
  StructV.Result_UnwrapOrDefault
    (StructV.mk_Result 5%Z (Errorf_v (to_any "error"))) = 0%Z.
Proof. split; reflexivity. Qed.
